(** * ragas.integrations.huggingface: the lazily initialised tokenizer accessor

    A shallow embedding of [src/ragas/integrations/huggingface.py]:
    the helper [_safe_json_loads_] and the accessor [huggingface_tokenizer],
    together with the pieces of Python they rest on (exception classes and
    [isinstance], [repr] of a [str], [os.environ], the module global
    [_HF_TOKENIZER]).

    What lives outside the repository is kept abstract: [json.loads], the
    import of [transformers] and [AutoTokenizer.from_pretrained] are
    parameters of the development. *)

From Stdlib Require Import String Ascii List NArith ZArith Bool Lia.
From stdpp Require Import base option list gmap strings.

Local Open Scope string_scope.
Set Warnings "-register-all".

(* ===================================================================== *)
(** ** Python exceptions *)
(* ===================================================================== *)

(** The exception classes the module meets, with Python's own hierarchy.
    [Subclass name base] is a class defined by a library by single
    inheritance ([class name(base)]). *)
Inductive exc_class : Type :=
| BaseException
| KeyboardInterrupt
| SystemExit
| Exception
| NameError
| UnboundLocalError
| ValueError
| JSONDecodeError
| RuntimeError
| RecursionError
| ImportError
| ModuleNotFoundError
| OSError
| TypeError
| Subclass (name : string) (base : exc_class).

#[global] Instance exc_class_eq_dec : EqDecision exc_class.
Proof. solve_decision. Defined.

(** Method resolution order: the class itself, then its ancestors. *)
Fixpoint mro (c : exc_class) : list exc_class :=
  c :: match c with
       | BaseException => []
       | KeyboardInterrupt | SystemExit | Exception => [BaseException]
       | NameError | ValueError | RuntimeError
       | ImportError | OSError | TypeError => [Exception; BaseException]
       | UnboundLocalError => [NameError; Exception; BaseException]
       | JSONDecodeError => [ValueError; Exception; BaseException]
       | RecursionError => [RuntimeError; Exception; BaseException]
       | ModuleNotFoundError => [ImportError; Exception; BaseException]
       | Subclass _ base => mro base
       end.

Definition issubclass (c d : exc_class) : bool := bool_decide (d ∈ mro c).

(** An exception object: its class, its message ([str(e)]) and the
    [__cause__] set by [raise ... from ...]. *)
Inductive exn : Type :=
| Exn (cls : exc_class) (msg : string) (cause : option exn).

Definition exc_type (e : exn) : exc_class := let 'Exn c _ _ := e in c.
Definition exc_msg (e : exn) : string := let 'Exn _ m _ := e in m.
Definition exc_cause (e : exn) : option exn := let 'Exn _ _ c := e in c.

Definition isinstance (e : exn) (c : exc_class) : bool :=
  issubclass (exc_type e) c.

(** The outcome of evaluating a Python expression or call. *)
Inductive result (A : Type) : Type :=
| Returns (a : A)
| Raises (e : exn).
Arguments Returns {A} a.
Arguments Raises {A} e.

Definition returned {A} (r : result A) : bool :=
  match r with Returns _ => true | Raises _ => false end.

(* ===================================================================== *)
(** ** [repr] of a [str] *)
(* ===================================================================== *)

(** A Python [str] is modelled by a Rocq [string] whose characters are
    the code points below 256.  [py_repr] follows CPython's
    [unicode_repr] on that range. *)

Definition squote : ascii := ascii_of_N 39.
Definition dquote : ascii := ascii_of_N 34.
Definition backslash : ascii := ascii_of_N 92.

Fixpoint occurs (c : ascii) (s : string) : bool :=
  match s with
  | EmptyString => false
  | String a s' => if Ascii.eqb a c then true else occurs c s'
  end.

(** Single quotes, unless the text has a single quote and no double one. *)
Definition repr_quote (s : string) : ascii :=
  if occurs squote s && negb (occurs dquote s) then dquote else squote.

Definition hexdigit (n : N) : ascii :=
  match String.get (N.to_nat n) "0123456789abcdef" with
  | Some a => a
  | None => "0"%char
  end.

Definition hex_escape (n : N) : string :=
  String backslash
    (String "x" (String (hexdigit (n / 16)) (String (hexdigit (n mod 16)) ""))).

(** [Py_UNICODE_ISPRINTABLE] on U+0080..U+00FF: the C1 controls, the
    no-break space and the soft hyphen are not printable. *)
Definition latin1_printable (n : N) : bool :=
  (160 <? n)%N && negb (n =? 173)%N.

Definition repr_char (quote c : ascii) : string :=
  let n := N_of_ascii c in
  if Ascii.eqb c quote || Ascii.eqb c backslash then String backslash (String c "")
  else if (n =? 9)%N then String backslash "t"
  else if (n =? 10)%N then String backslash "n"
  else if (n =? 13)%N then String backslash "r"
  else if (n <? 32)%N || (n =? 127)%N then hex_escape n
  else if (n <? 127)%N then String c ""
  else if latin1_printable n then String c "" else hex_escape n.

Fixpoint repr_body (quote : ascii) (s : string) : string :=
  match s with
  | EmptyString => String quote ""
  | String c s' => repr_char quote c +:+ repr_body quote s'
  end.

Definition py_repr (s : string) : string :=
  let q := repr_quote s in String q (repr_body q s).

(** Reading a [repr] back, one character at a time. *)

Definition hexval (a : ascii) : N :=
  let n := N_of_ascii a in
  if (n <? 58)%N then (n - 48)%N else (n - 87)%N.

(** The character that opens [s] and what follows it; [None] at the
    closing quote. *)
Definition unrepr_char (quote : ascii) (s : string) : option (ascii * string) :=
  match s with
  | EmptyString => None
  | String a rest =>
      if Ascii.eqb a backslash then
        match rest with
        | EmptyString => None
        | String b rest' =>
            if Ascii.eqb b "t" then Some (ascii_of_N 9, rest')
            else if Ascii.eqb b "n" then Some (ascii_of_N 10, rest')
            else if Ascii.eqb b "r" then Some (ascii_of_N 13, rest')
            else if Ascii.eqb b "x" then
              match rest' with
              | String h1 (String h2 rest'') =>
                  Some (ascii_of_N (16 * hexval h1 + hexval h2), rest'')
              | _ => None
              end
            else Some (b, rest')
        end
      else if Ascii.eqb a quote then None
      else Some (a, rest)
  end.

(** Printable ASCII other than the single quote and the backslash. *)
Definition plain_char (c : ascii) : bool :=
  let n := N_of_ascii c in
  (31 <? n)%N && (n <? 127)%N && negb (Ascii.eqb c squote) && negb (Ascii.eqb c backslash).

Fixpoint plain (s : string) : bool :=
  match s with
  | EmptyString => true
  | String c s' => plain_char c && plain s'
  end.

(* ===================================================================== *)
(** ** Values produced by [json.loads] *)
(* ===================================================================== *)

(** A JSON number with a fraction or exponent becomes a Python [float];
    it is kept as the text of its literal. A [dict] keeps its items in
    insertion order. *)
Inductive pyvalue : Type :=
| PyNone
| PyBool (b : bool)
| PyInt (z : Z)
| PyFloat (literal : string)
| PyStr (s : string)
| PyList (items : list pyvalue)
| PyDict (items : list (string * pyvalue)).

(** The empty [dict], written [{}] in the source. *)
Definition empty_dict : pyvalue := PyDict [].

Definition is_dict (v : pyvalue) : bool :=
  match v with PyDict _ => true | _ => false end.

(** [type(v).__name__]. *)
Definition type_name (v : pyvalue) : string :=
  match v with
  | PyNone => "NoneType"
  | PyBool _ => "bool"
  | PyInt _ => "int"
  | PyFloat _ => "float"
  | PyStr _ => "str"
  | PyList _ => "list"
  | PyDict _ => "dict"
  end.

(* ===================================================================== *)
(** ** [_safe_json_loads_] *)
(* ===================================================================== *)

Section SafeJsonLoads.

(** [json.loads] of the standard library, on a [str]. *)
Variable json_loads : string -> result pyvalue.

(** Truth value of a [str | None]: [None] and the empty text are false. *)
Definition truthy (s : option string) : bool :=
  match s with
  | None | Some EmptyString => false
  | Some _ => true
  end.

Definition decode_failure_message (s : string) : string :=
  "Failed to decode JSON string " +:+ py_repr s.

(** <<
    if not s:
        return {}
    try:
        return json.loads(s)
    except json.JSONDecodeError as e:
        raise ValueError(f"Failed to decode JSON string {s!r}") from e
    >> *)
Definition _safe_json_loads_ (s : option string) : result pyvalue :=
  match s with
  | None | Some EmptyString => Returns empty_dict
  | Some text =>
      match json_loads text with
      | Returns v => Returns v
      | Raises e =>
          if isinstance e JSONDecodeError
          then Raises (Exn ValueError (decode_failure_message text) (Some e))
          else Raises e
      end
  end.

End SafeJsonLoads.

(* ===================================================================== *)
(** ** The process: module global, environment, observable events *)
(* ===================================================================== *)

(** What a call of the accessor does to the world outside its frame, in
    the order it happens. *)
Inductive event : Type :=
| EvImportTransformers
| EvEnvironGet (key : string)
| EvEnvironSet (key value : string)
| EvFromPretrained (model : string) (kwargs : list (string * pyvalue)) (returned : bool)
| EvLoggerWarning (message : string).

#[global] Instance pyvalue_inhabited : Inhabited pyvalue := populate PyNone.

Section Accessor.

(** Tokenizer objects, as references: equality is Python's [is]. *)
Variable tokenizer : Type.

Variable json_loads : string -> result pyvalue.

(** The parts of the interpreter state the accessor touches:
    [globals_HF_TOKENIZER] is [None] while ["_HF_TOKENIZER" in globals()]
    is false; [history] lists the events so far, oldest first. *)
Record process : Type := Process {
  globals_HF_TOKENIZER : option tokenizer;
  os_environ : gmap string string;
  history : list event
}.

(** The [transformers] package as the call finds it: what the import
    statement does ([None]: it succeeds), what
    [AutoTokenizer.from_pretrained] answers, given the environment it
    reads, the model name and the keyword arguments, and the name under
    which the interpreter reports that callable. *)
Record transformers : Type := Transformers {
  import_AutoTokenizer : option exn;
  from_pretrained :
    gmap string string -> string -> list (string * pyvalue) -> result tokenizer;
  (** how the interpreter prints the callee in its error messages, such
      as [module.AutoTokenizer.from_pretrained()] *)
  from_pretrained_str : string
}.

(** Statements run in a process and return or raise. *)
Definition py (A : Type) : Type := process -> result A * process.

Definition ret {A} (a : A) : py A := fun p => (Returns a, p).
Definition raise {A} (e : exn) : py A := fun p => (Raises e, p).
Definition bind {A B} (m : py A) (k : A -> py B) : py B :=
  fun p => match m p with
           | (Returns a, p') => k a p'
           | (Raises e, p') => (Raises e, p')
           end.

Notation "x <- m ; k" := (bind m (fun x => k))
  (at level 20, m at level 100, k at level 200, only parsing).
Notation "m >> k" := (bind m (fun _ => k))
  (at level 20, k at level 200, only parsing).

(** [try: body / except Exception as e: handler e]: an exception that is
    not an instance of [Exception] passes through. *)
Definition try_except_Exception {A} (body : py A) (handler : exn -> py A) : py A :=
  fun p => match body p with
           | (Returns a, p') => (Returns a, p')
           | (Raises e, p') =>
               if isinstance e Exception then handler e p' else (Raises e, p')
           end.

(** A call that does not touch the process. *)
Definition eval {A} (r : result A) : py A := fun p => (r, p).

Definition emit (ev : event) : py unit :=
  fun p => (Returns tt,
            Process (globals_HF_TOKENIZER p) (os_environ p) (history p ++ [ev])).

Definition globals_get_HF_TOKENIZER : py (option tokenizer) :=
  fun p => (Returns (globals_HF_TOKENIZER p), p).

Definition globals_set_HF_TOKENIZER (tok : tokenizer) : py unit :=
  fun p => (Returns tt, Process (Some tok) (os_environ p) (history p)).

(** [os.environ.get(key)] *)
Definition os_environ_get (key : string) : py (option string) :=
  emit (EvEnvironGet key) >> fun p => (Returns (os_environ p !! key), p).

(** [os.environ[key] = value] *)
Definition os_environ_set (key value : string) : py unit :=
  emit (EvEnvironSet key value) >>
  fun p => (Returns tt,
            Process (globals_HF_TOKENIZER p) (<[key := value]> (os_environ p)) (history p)).

(** [from transformers import AutoTokenizer] *)
Definition import_transformers (lib : transformers) : py unit :=
  emit EvImportTransformers >>
  match import_AutoTokenizer lib with
  | None => ret tt
  | Some e => raise e
  end.

(** The interpreter's message when [v], unpacked by two stars in a call,
    is not a mapping:
    the callee as it prints it, then the fixed text and [type(v).__name__]. *)
Definition not_a_mapping_message (lib : transformers) (v : pyvalue) : string :=
  from_pretrained_str lib +:+ " argument after ** must be a mapping, not " +:+ type_name v.

(** [AutoTokenizer.from_pretrained(model, **tokenizer_args)]: unpacking a
    value that is not a mapping raises [TypeError] before the call. *)
Definition call_from_pretrained (lib : transformers) (model : string)
    (tokenizer_args : pyvalue) : py tokenizer :=
  match tokenizer_args with
  | PyDict kwargs =>
      fun p =>
        let r := from_pretrained lib (os_environ p) model kwargs in
        (r, Process (globals_HF_TOKENIZER p) (os_environ p)
              (history p ++ [EvFromPretrained model kwargs (returned r)]))
  | v => raise (Exn TypeError (not_a_mapping_message lib v) None)
  end.

(** [logger.warning(message)]; the logging module reports the failures
    of its handlers itself and returns. *)
Definition logger_warning (message : string) : py unit :=
  emit (EvLoggerWarning message).

Definition model_unset_message : string :=
  "HF_TOKENIZER_MODEL environment variable must be set to use Huggingface tokenizer.".

Definition load_failure_message : string :=
  "Failed to load Huggingface tokenizer. Unset environment variable 'HF_TOKENIZER_MODEL' to disable using huggingface tokenizer.".

(** The body of the [try] statement, lines 48 to 71. *)
Definition huggingface_tokenizer_body (lib : transformers) : py (option tokenizer) :=
  cached <- globals_get_HF_TOKENIZER;
  match cached with
  | Some tok => ret (Some tok)
  | None =>
      import_transformers lib >>
      hf_tokenizer_model <- os_environ_get "HF_TOKENIZER_MODEL";
      match hf_tokenizer_model with
      | None | Some EmptyString => raise (Exn NameError model_unset_message None)
      | Some model =>
          hf_tokenizer_args <- os_environ_get "HF_TOKENIZER_ARGS";
          tokenizer_args <- eval (_safe_json_loads_ json_loads hf_tokenizer_args);
          os_environ_set "TOKENIZERS_PARALLELISM" "false" >>
          tok <- call_from_pretrained lib model tokenizer_args;
          globals_set_HF_TOKENIZER tok >>
          logger_warning ("Huggingface Tokenizer has been loaded: " +:+ model) >>
          ret (Some tok)
      end
  end.

(** The [except Exception as e] clause, lines 72 to 79. *)
Definition huggingface_tokenizer_handler (e : exn) : py (option tokenizer) :=
  if negb (isinstance e NameError)
  then raise (Exn RuntimeError load_failure_message (Some e))
  else ret None.

Definition huggingface_tokenizer (lib : transformers) : py (option tokenizer) :=
  try_except_Exception (huggingface_tokenizer_body lib) huggingface_tokenizer_handler.

(** What the [except] clause makes of the body's outcome. *)
Definition after_handler (r : result (option tokenizer)) : result (option tokenizer) :=
  match r with
  | Returns a => Returns a
  | Raises e =>
      if isinstance e Exception
      then if isinstance e NameError
           then Returns None
           else Raises (Exn RuntimeError load_failure_message (Some e))
      else Raises e
  end.

(** *** Several calls in one process *)

(** Between two calls the rest of the program may change the
    environment; each call finds the library in some condition. *)
Record call : Type := Call {
  call_library : transformers;
  call_setenv : gmap string string -> gmap string string
}.

Definition setenv (f : gmap string string -> gmap string string) (p : process) : process :=
  Process (globals_HF_TOKENIZER p) (f (os_environ p)) (history p).

Fixpoint run_calls (cs : list call) (p : process) : list (result (option tokenizer)) * process :=
  match cs with
  | [] => ([], p)
  | c :: cs' =>
      let '(r, p') := huggingface_tokenizer (call_library c) (setenv (call_setenv c) p) in
      let '(rs, p'') := run_calls cs' p' in
      (r :: rs, p'')
  end.

(** A process in which the accessor has not been called yet. *)
Definition fresh_process (env : gmap string string) : process := Process None env [].

(** The two states of the accessor. *)
Definition uninitialized (p : process) : Prop := globals_HF_TOKENIZER p = None.
Definition initialized (tok : tokenizer) (p : process) : Prop :=
  globals_HF_TOKENIZER p = Some tok.

End Accessor.

Arguments Process {tokenizer} _ _ _.
Arguments globals_HF_TOKENIZER {tokenizer} _.
Arguments os_environ {tokenizer} _.
Arguments history {tokenizer} _.
Arguments Transformers {tokenizer} _ _ _.
Arguments import_AutoTokenizer {tokenizer} _.
Arguments from_pretrained {tokenizer} _ _ _ _.
Arguments from_pretrained_str {tokenizer} _.
Arguments not_a_mapping_message {tokenizer} _ _.
Arguments Call {tokenizer} _ _.
Arguments call_library {tokenizer} _.
Arguments call_setenv {tokenizer} _ _.
Arguments huggingface_tokenizer {tokenizer} _ _ _.
Arguments huggingface_tokenizer_body {tokenizer} _ _ _.
Arguments huggingface_tokenizer_handler {tokenizer} _ _.
Arguments run_calls {tokenizer} _ _ _.
Arguments fresh_process {tokenizer} _.
Arguments setenv {tokenizer} _ _.
Arguments after_handler {tokenizer} _.
Arguments uninitialized {tokenizer} _.
Arguments initialized {tokenizer} _ _.

(** *** Reading the history *)

(** The environment once the accessor has written its flag. *)
Definition the_flag (env : gmap string string) : gmap string string :=
  <["TOKENIZERS_PARALLELISM" := "false"]> env.

(** The events of a call up to the parsing of the options. *)
Definition reads_before_parse : list event :=
  [EvImportTransformers; EvEnvironGet "HF_TOKENIZER_MODEL"; EvEnvironGet "HF_TOKENIZER_ARGS"].

Definition flag_write : event := EvEnvironSet "TOKENIZERS_PARALLELISM" "false".

Definition is_construction (ev : event) : bool :=
  match ev with EvFromPretrained _ _ _ => true | _ => false end.

Definition is_successful_construction (ev : event) : bool :=
  match ev with EvFromPretrained _ _ ok => ok | _ => false end.

Definition is_environ_write (ev : event) : bool :=
  match ev with EvEnvironSet _ _ => true | _ => false end.

Definition is_warning (ev : event) : bool :=
  match ev with EvLoggerWarning _ => true | _ => false end.

Definition count_events (f : event -> bool) (h : list event) : nat :=
  length (List.filter f h).

(** Does [sub] occur in [s]? *)
Definition mentions (s sub : string) : bool :=
  match String.index 0 sub s with Some _ => true | None => false end.

(* ===================================================================== *)
(** ** A concrete setting for the examples *)
(* ===================================================================== *)

Module Sample.

(** Tokenizer objects, told apart by their address. *)
Inductive tokenizer : Type := TokenizerAt (address : N).

(** [json.loads] on the texts used below; any other text is answered
    like the malformed ones. *)
Definition json_loads (s : string) : result pyvalue :=
  if bool_decide (s = "{}") then Returns (PyDict [])
  else if bool_decide (s = "[1, 2]") then Returns (PyList [PyInt 1; PyInt 2])
  else if bool_decide (s = "{" +:+ String dquote ("use_fast" +:+ String dquote ": false}"))
       then Returns (PyDict [("use_fast", PyBool false)])
  else Raises (Exn JSONDecodeError "Expecting value: line 1 column 1 (char 0)" None).

(** The callee as Python 3.9 and later print it. *)
Definition callee : string :=
  "transformers.models.auto.tokenization_auto.AutoTokenizer.from_pretrained()".

(** A library that knows one model. *)
Definition hub : transformers tokenizer :=
  Transformers None
    (fun env model kwargs =>
       if bool_decide (model = "bert-base-uncased")
       then Returns (TokenizerAt 4096)
       else Raises (Exn OSError (model +:+ " is not a valid model identifier") None))
    callee.

(** [transformers] is not installed. *)
Definition not_installed : transformers tokenizer :=
  Transformers (Some (Exn ModuleNotFoundError "No module named 'transformers'" None))
    (fun _ _ _ => Returns (TokenizerAt 0)) callee.

(** A library whose loading code trips over an undefined name. *)
Definition broken_remote_code : transformers tokenizer :=
  Transformers None
    (fun _ _ _ => Raises (Exn NameError "name 'tokenizer_class' is not defined" None))
    callee.

(** The user interrupts the download. *)
Definition interrupted : transformers tokenizer :=
  Transformers None (fun _ _ _ => Raises (Exn KeyboardInterrupt "" None)) callee.

Definition env_model : gmap string string :=
  {[ "HF_TOKENIZER_MODEL" := "bert-base-uncased" ]}.

Definition env_bad_args : gmap string string :=
  <[ "HF_TOKENIZER_ARGS" := "not json" ]> env_model.

Definition env_list_args : gmap string string :=
  <[ "HF_TOKENIZER_ARGS" := "[1, 2]" ]> env_model.

Definition env_empty_model : gmap string string :=
  {[ "HF_TOKENIZER_MODEL" := "" ]}.

End Sample.

(* ===================================================================== *)
(** ** The paths through the accessor *)
(* ===================================================================== *)

Section Paths.

Context {tokenizer : Type}.
Variable json_loads : string -> result pyvalue.
Variable lib : transformers tokenizer.

Implicit Types (env : gmap string string) (h : list event) (tok : tokenizer).

Local Abbreviation body := (huggingface_tokenizer_body json_loads lib).
Local Abbreviation accessor := (huggingface_tokenizer json_loads lib).

Lemma body_cached tok env h :
  body (Process (Some tok) env h) = (Returns (Some tok), Process (Some tok) env h).
Proof. reflexivity. Qed.

Lemma body_import_fails env h e :
  import_AutoTokenizer lib = Some e ->
  body (Process None env h) = (Raises e, Process None env (h ++ [EvImportTransformers])).
Proof.
  intros Himp. unfold huggingface_tokenizer_body, bind, import_transformers; simpl.
  rewrite Himp. reflexivity.
Qed.

Lemma body_model_absent env h :
  import_AutoTokenizer lib = None ->
  truthy (env !! "HF_TOKENIZER_MODEL") = false ->
  body (Process None env h)
  = (Raises (Exn NameError model_unset_message None),
     Process None env (h ++ [EvImportTransformers; EvEnvironGet "HF_TOKENIZER_MODEL"])).
Proof.
  intros Himp Hm. unfold huggingface_tokenizer_body, bind, import_transformers; simpl.
  rewrite Himp; simpl. rewrite <- app_assoc; simpl.
  destruct (env !! "HF_TOKENIZER_MODEL") as [[|c m]|]; simpl in *; try discriminate;
    reflexivity.
Qed.

Lemma body_parse_fails env h model e :
  import_AutoTokenizer lib = None ->
  env !! "HF_TOKENIZER_MODEL" = Some model -> model <> "" ->
  _safe_json_loads_ json_loads (env !! "HF_TOKENIZER_ARGS") = Raises e ->
  body (Process None env h) = (Raises e, Process None env (h ++ reads_before_parse)).
Proof.
  intros Himp Hm Hne Hp. unfold huggingface_tokenizer_body, bind, import_transformers; simpl.
  rewrite Himp; simpl. rewrite Hm. destruct model as [|c m]; [congruence|]. simpl.
  unfold eval. rewrite Hp. rewrite <- !app_assoc. reflexivity.
Qed.

Lemma body_not_a_mapping env h model v :
  import_AutoTokenizer lib = None ->
  env !! "HF_TOKENIZER_MODEL" = Some model -> model <> "" ->
  _safe_json_loads_ json_loads (env !! "HF_TOKENIZER_ARGS") = Returns v ->
  is_dict v = false ->
  body (Process None env h)
  = (Raises (Exn TypeError (not_a_mapping_message lib v) None),
     Process None (the_flag env) (h ++ reads_before_parse ++ [flag_write])).
Proof.
  intros Himp Hm Hne Hp Hv. unfold huggingface_tokenizer_body, bind, import_transformers; simpl.
  rewrite Himp; simpl. rewrite Hm. destruct model as [|c m]; [congruence|]. simpl.
  unfold eval. rewrite Hp. rewrite <- !app_assoc.
  destruct v; simpl in *; try discriminate; reflexivity.
Qed.

Lemma body_construction_fails env h model kwargs e :
  import_AutoTokenizer lib = None ->
  env !! "HF_TOKENIZER_MODEL" = Some model -> model <> "" ->
  _safe_json_loads_ json_loads (env !! "HF_TOKENIZER_ARGS") = Returns (PyDict kwargs) ->
  from_pretrained lib (the_flag env) model kwargs = Raises e ->
  body (Process None env h)
  = (Raises e,
     Process None (the_flag env)
       (h ++ reads_before_parse ++ [flag_write; EvFromPretrained model kwargs false])).
Proof.
  intros Himp Hm Hne Hp Hc. unfold huggingface_tokenizer_body, bind, import_transformers; simpl.
  rewrite Himp; simpl. rewrite Hm. destruct model as [|c m]; [congruence|]. simpl.
  unfold eval. rewrite Hp. simpl. fold (the_flag env). rewrite Hc. simpl.
  rewrite <- !app_assoc. reflexivity.
Qed.

Lemma body_constructs env h model kwargs tok :
  import_AutoTokenizer lib = None ->
  env !! "HF_TOKENIZER_MODEL" = Some model -> model <> "" ->
  _safe_json_loads_ json_loads (env !! "HF_TOKENIZER_ARGS") = Returns (PyDict kwargs) ->
  from_pretrained lib (the_flag env) model kwargs = Returns tok ->
  body (Process None env h)
  = (Returns (Some tok),
     Process (Some tok) (the_flag env)
       (h ++ reads_before_parse
          ++ [flag_write; EvFromPretrained model kwargs true;
              EvLoggerWarning ("Huggingface Tokenizer has been loaded: " +:+ model)])).
Proof.
  intros Himp Hm Hne Hp Hc. unfold huggingface_tokenizer_body, bind, import_transformers; simpl.
  rewrite Himp; simpl. rewrite Hm. destruct model as [|c m]; [congruence|]. simpl.
  unfold eval. rewrite Hp. simpl. fold (the_flag env). rewrite Hc. simpl.
  rewrite <- !app_assoc. reflexivity.
Qed.

Lemma accessor_of_body p r p' :
  body p = (r, p') -> accessor p = (after_handler r, p').
Proof.
  intros Hb. unfold huggingface_tokenizer, try_except_Exception. rewrite Hb.
  destruct r as [a|e]; simpl; [reflexivity|].
  unfold huggingface_tokenizer_handler.
  destruct (isinstance e Exception); [|reflexivity].
  destruct (isinstance e NameError); reflexivity.
Qed.

Lemma accessor_cached tok env h :
  accessor (Process (Some tok) env h) = (Returns (Some tok), Process (Some tok) env h).
Proof. apply (accessor_of_body _ _ _ (body_cached tok env h)). Qed.

(** A raising body leaves the global unset. *)
Lemma body_raises_uncached p e p' :
  body p = (Raises e, p') -> globals_HF_TOKENIZER p = None /\ globals_HF_TOKENIZER p' = None.
Proof.
  destruct p as [[tok|] env h]; [rewrite body_cached; discriminate|].
  unfold huggingface_tokenizer_body, bind, import_transformers; simpl.
  destruct (import_AutoTokenizer lib); simpl; [intros [= <- <-]; auto|].
  destruct (env !! "HF_TOKENIZER_MODEL") as [[|c m]|]; simpl;
    try (intros [= <- <-]; auto).
  unfold eval.
  destruct (_safe_json_loads_ json_loads (env !! "HF_TOKENIZER_ARGS")) as [v|e0]; simpl;
    [|intros [= <- <-]; auto].
  destruct v; simpl; try (intros [= <- <-]; auto).
  destruct (from_pretrained lib _ _ _); simpl; [discriminate|intros [= <- <-]; auto].
Qed.

End Paths.

(* ===================================================================== *)
(** ** [repr] names its argument *)
(* ===================================================================== *)

Lemma unrepr_repr_char q c r :
  q = squote \/ q = dquote ->
  unrepr_char q (repr_char q c +:+ r) = Some (c, r).
Proof.
  intros [-> | ->];
    destruct c as [[] [] [] [] [] [] [] []]; reflexivity.
Qed.

Lemma unrepr_closing_quote q :
  q = squote \/ q = dquote -> unrepr_char q (String q "") = None.
Proof. intros [-> | ->]; reflexivity. Qed.

Lemma repr_body_inj q s1 s2 :
  q = squote \/ q = dquote -> repr_body q s1 = repr_body q s2 -> s1 = s2.
Proof.
  intros Hq. revert s2.
  induction s1 as [|c1 s1 IH]; intros [|c2 s2] H; simpl in H.
  - reflexivity.
  - apply (f_equal (unrepr_char q)) in H.
    rewrite unrepr_repr_char, unrepr_closing_quote in H by assumption. discriminate.
  - apply (f_equal (unrepr_char q)) in H.
    rewrite unrepr_repr_char, unrepr_closing_quote in H by assumption. discriminate.
  - apply (f_equal (unrepr_char q)) in H.
    rewrite !unrepr_repr_char in H by assumption.
    injection H as -> Hrest. f_equal. apply IH, Hrest.
Qed.

Lemma repr_quote_cases s : repr_quote s = squote \/ repr_quote s = dquote.
Proof.
  unfold repr_quote. destruct (occurs squote s && negb (occurs dquote s)); auto.
Qed.

(** Two texts with the same [repr] are the same text. *)
Lemma py_repr_inj s1 s2 : py_repr s1 = py_repr s2 -> s1 = s2.
Proof.
  unfold py_repr. intros H. injection H as Hq Hb.
  rewrite <- Hq in Hb.
  exact (repr_body_inj _ _ _ (repr_quote_cases s1) Hb).
Qed.

Lemma append_cancel_l (prefix a b : string) : prefix +:+ a = prefix +:+ b -> a = b.
Proof.
  induction prefix as [|c prefix IH]; simpl; intros H; [assumption|].
  injection H as H. apply IH, H.
Qed.

Lemma decode_failure_message_inj s1 s2 :
  decode_failure_message s1 = decode_failure_message s2 -> s1 = s2.
Proof.
  unfold decode_failure_message. intros H.
  apply py_repr_inj. exact (append_cancel_l _ _ _ H).
Qed.

Lemma plain_no_squote s : plain s = true -> occurs squote s = false.
Proof.
  induction s as [|c s IH]; simpl; [reflexivity|].
  unfold plain_char. intros H.
  apply andb_prop in H as [Hc Hs]. apply andb_prop in Hc as [Hc _].
  apply andb_prop in Hc as [_ Hq]. apply negb_true_iff in Hq.
  rewrite Hq. apply IH, Hs.
Qed.

Lemma repr_char_plain c : plain_char c = true -> repr_char squote c = String c "".
Proof. destruct c as [[] [] [] [] [] [] [] []]; intros H; (discriminate || reflexivity). Qed.

Lemma repr_body_plain s :
  plain s = true -> repr_body squote s = s +:+ String squote "".
Proof.
  induction s as [|c s IH]; simpl; [reflexivity|].
  intros H. apply andb_prop in H as [Hc Hs].
  rewrite (repr_char_plain c Hc), (IH Hs). reflexivity.
Qed.

(** A text of printable ASCII without single quote or backslash is
    echoed as it stands, between single quotes. *)
Lemma py_repr_plain s :
  plain s = true -> py_repr s = String squote (s +:+ String squote "").
Proof.
  intros H. unfold py_repr, repr_quote.
  rewrite (plain_no_squote s H). simpl. rewrite (repr_body_plain s H). reflexivity.
Qed.

(* ===================================================================== *)
(** ** The options parser *)
(* ===================================================================== *)

Section ParserProperties.

Variable json_loads : string -> result pyvalue.

(** C5. Given [None] or the empty text, [_safe_json_loads_] returns the
    empty mapping and raises nothing, whatever [json.loads] would do. *)
Theorem safe_json_loads_empty_input :
  _safe_json_loads_ json_loads None = Returns (PyDict [])
  /\ _safe_json_loads_ json_loads (Some "") = Returns (PyDict []).
Proof. split; reflexivity. Qed.

(** C6. Given a non-empty text that [json.loads] rejects with a
    [JSONDecodeError], [_safe_json_loads_] raises a [ValueError] whose
    message is ["Failed to decode JSON string "] followed by the [repr] of
    the text, and whose cause is the decode error.  The message names the
    text: no other text yields the same message, and a text of plain
    characters stands in it as it is, between single quotes. *)
Theorem safe_json_loads_malformed (s : string) (e : exn) :
  s <> "" ->
  json_loads s = Raises e ->
  isinstance e JSONDecodeError = true ->
  exists e',
    _safe_json_loads_ json_loads (Some s) = Raises e'
    /\ exc_type e' = ValueError
    /\ exc_msg e' = "Failed to decode JSON string " +:+ py_repr s
    /\ exc_cause e' = Some e
    /\ (forall s2, decode_failure_message s2 = exc_msg e' -> s2 = s)
    /\ (plain s = true ->
        exc_msg e'
        = "Failed to decode JSON string " +:+ String squote (s +:+ String squote "")).
Proof.
  intros Hne Hj He. destruct s as [|c s]; [congruence|].
  unfold _safe_json_loads_. rewrite Hj, He.
  eexists; repeat split.
  - intros s2 H. exact (decode_failure_message_inj _ _ H).
  - intros Hplain. simpl exc_msg. unfold decode_failure_message.
    rewrite (py_repr_plain _ Hplain). reflexivity.
Qed.

(** C7. When [json.loads] reads the text as an object, [_safe_json_loads_]
    returns that very mapping.  ([json.loads] rejects the empty text.) *)
Theorem safe_json_loads_object (s : string) (items : list (string * pyvalue)) :
  (forall v, json_loads "" <> Returns v) ->
  json_loads s = Returns (PyDict items) ->
  _safe_json_loads_ json_loads (Some s) = Returns (PyDict items).
Proof.
  intros Hempty Hj. destruct s as [|c s]; [exfalso; exact (Hempty _ Hj)|].
  unfold _safe_json_loads_. rewrite Hj. reflexivity.
Qed.

(** C10. When [json.loads] reads a non-empty text as a value that is not
    an object, [_safe_json_loads_] raises nothing and returns that value
    as it is: the shape of the value is not checked. *)
Theorem safe_json_loads_non_object (s : string) (v : pyvalue) :
  s <> "" ->
  json_loads s = Returns v ->
  is_dict v = false ->
  _safe_json_loads_ json_loads (Some s) = Returns v.
Proof.
  intros Hne Hj _. destruct s as [|c s]; [congruence|].
  unfold _safe_json_loads_. rewrite Hj. reflexivity.
Qed.

End ParserProperties.

Lemma sample_json_loads_rejects_empty : forall v, Sample.json_loads "" <> Returns v.
Proof. intros v. vm_compute. discriminate. Qed.

Lemma safe_json_loads_malformed_witness :
  exists e',
    _safe_json_loads_ Sample.json_loads (Some "not json") = Raises e'
    /\ exc_type e' = ValueError
    /\ exc_msg e' = "Failed to decode JSON string 'not json'"
    /\ exc_cause e'
       = Some (Exn JSONDecodeError "Expecting value: line 1 column 1 (char 0)" None).
Proof.
  destruct (safe_json_loads_malformed Sample.json_loads "not json"
              (Exn JSONDecodeError "Expecting value: line 1 column 1 (char 0)" None))
    as (e' & Hr & Ht & Hm & Hc & _).
  - discriminate.
  - reflexivity.
  - reflexivity.
  - exists e'. exact (conj Hr (conj Ht (conj Hm Hc))).
Defined.

Lemma safe_json_loads_object_witness :
  _safe_json_loads_ Sample.json_loads (Some "{}") = Returns (PyDict []).
Proof.
  apply (safe_json_loads_object Sample.json_loads "{}" []).
  - exact sample_json_loads_rejects_empty.
  - reflexivity.
Defined.

Lemma safe_json_loads_non_object_witness :
  _safe_json_loads_ Sample.json_loads (Some "[1, 2]") = Returns (PyList [PyInt 1; PyInt 2]).
Proof.
  apply (safe_json_loads_non_object Sample.json_loads "[1, 2]").
  - discriminate.
  - reflexivity.
  - reflexivity.
Defined.

(* ===================================================================== *)
(** ** The cache *)
(* ===================================================================== *)

Section CacheProperties.

Context {tokenizer : Type}.
Variable json_loads : string -> result pyvalue.

Implicit Types (p : process tokenizer) (tok : tokenizer) (cs : list (call tokenizer)).

Local Abbreviation accessor := (huggingface_tokenizer json_loads).
Local Abbreviation run := (run_calls json_loads).
Local Abbreviation constructions := (count_events is_successful_construction).

Lemma count_events_app (f : event -> bool) (h1 h2 : list event) :
  count_events f (h1 ++ h2) = count_events f h1 + count_events f h2.
Proof. unfold count_events. rewrite List.filter_app, length_app. reflexivity. Qed.

Ltac count_tail := rewrite count_events_app; unfold count_events; simpl; lia.

(** One call in the initialised state: the cached object, and nothing else. *)
Lemma accessor_initialized lib p tok :
  initialized tok p -> accessor lib p = (Returns (Some tok), p).
Proof.
  destruct p as [g env h]; unfold initialized; simpl; intros ->.
  apply accessor_cached.
Qed.

(** One call in the uninitialised state either leaves the global unset and
    constructs nothing, or constructs one tokenizer and caches it. *)
Lemma accessor_uninitialized_step lib p :
  uninitialized p ->
  (globals_HF_TOKENIZER (accessor lib p).2 = None
   /\ constructions (history (accessor lib p).2) = constructions (history p))
  \/ (exists tok,
        (accessor lib p).1 = Returns (Some tok)
        /\ initialized tok (accessor lib p).2
        /\ constructions (history (accessor lib p).2) = S (constructions (history p))).
Proof.
  destruct p as [g env h]; unfold uninitialized; simpl; intros ->.
  destruct (import_AutoTokenizer lib) as [e|] eqn:Himp.
  { left. rewrite (accessor_of_body _ _ _ _ _ (body_import_fails json_loads lib env h e Himp)).
    simpl. split; [reflexivity|count_tail]. }
  destruct (truthy (env !! "HF_TOKENIZER_MODEL")) eqn:Hm.
  2:{ left. rewrite (accessor_of_body _ _ _ _ _ (body_model_absent json_loads lib env h Himp Hm)).
      simpl. split; [reflexivity|count_tail]. }
  destruct (env !! "HF_TOKENIZER_MODEL") as [model|] eqn:Hmodel; [|discriminate].
  assert (Hne : model <> "") by (intros ->; discriminate).
  destruct (_safe_json_loads_ json_loads (env !! "HF_TOKENIZER_ARGS")) as [v|e] eqn:Hp.
  2:{ left. rewrite (accessor_of_body _ _ _ _ _
                       (body_parse_fails json_loads lib env h model e Himp Hmodel Hne Hp)).
      simpl. split; [reflexivity|count_tail]. }
  destruct (is_dict v) eqn:Hd.
  2:{ left. rewrite (accessor_of_body _ _ _ _ _
                       (body_not_a_mapping json_loads lib env h model v Himp Hmodel Hne Hp Hd)).
      simpl. split; [reflexivity|count_tail]. }
  destruct v as [| | | | | |kwargs]; try discriminate.
  destruct (from_pretrained lib (the_flag env) model kwargs) as [tok|e] eqn:Hc.
  - right. exists tok.
    rewrite (accessor_of_body _ _ _ _ _
               (body_constructs json_loads lib env h model kwargs tok Himp Hmodel Hne Hp Hc)).
    simpl. repeat split. count_tail.
  - left.
    rewrite (accessor_of_body _ _ _ _ _
               (body_construction_fails json_loads lib env h model kwargs e Himp Hmodel Hne Hp Hc)).
    simpl. split; [reflexivity|count_tail].
Qed.

Lemma run_initialized cs p tok :
  initialized tok p ->
  Forall (fun r => r = Returns (Some tok)) (run cs p).1
  /\ initialized tok (run cs p).2
  /\ history (run cs p).2 = history p.
Proof.
  revert p. induction cs as [|c cs IH]; intros p Hinit; simpl.
  - repeat split; [constructor|assumption].
  - assert (Hset : initialized tok (setenv (call_setenv c) p)) by exact Hinit.
    rewrite (accessor_initialized _ _ _ Hset).
    destruct (IH _ Hset) as (Hrs & Hg & Hh).
    destruct (run cs (setenv (call_setenv c) p)) as [rs p'']; simpl in *.
    repeat split; [constructor; [reflexivity|assumption]|assumption|assumption].
Qed.

(** Whatever the calls, the libraries and the environments: a process
    never sees more than one successful construction. *)
Lemma run_constructions_bound cs p :
  match globals_HF_TOKENIZER p with
  | None => constructions (history p) = 0
  | Some _ => constructions (history p) = 1
  end ->
  match globals_HF_TOKENIZER (run cs p).2 with
  | None => constructions (history (run cs p).2) = 0
  | Some _ => constructions (history (run cs p).2) = 1
  end.
Proof.
  revert p. induction cs as [|c cs IH]; intros p Hinv; simpl; [assumption|].
  set (q := setenv (call_setenv c) p).
  assert (Hq : match globals_HF_TOKENIZER q with
               | None => constructions (history q) = 0
               | Some _ => constructions (history q) = 1
               end) by exact Hinv.
  destruct (accessor (call_library c) q) as [r p'] eqn:Hstep.
  assert (Hp' : match globals_HF_TOKENIZER p' with
                | None => constructions (history p') = 0
                | Some _ => constructions (history p') = 1
                end).
  { destruct (globals_HF_TOKENIZER q) as [tok|] eqn:Hg.
    - rewrite (accessor_initialized _ _ _ Hg) in Hstep. injection Hstep as <- <-.
      rewrite Hg. assumption.
    - destruct (accessor_uninitialized_step (call_library c) q Hg)
        as [[Hn Hc]|(tok & _ & Hi & Hc)]; rewrite Hstep in *; simpl in *.
      + rewrite Hn. lia.
      + unfold initialized in Hi. rewrite Hi. lia. }
  specialize (IH p' Hp').
  destruct (run cs p') as [rs p'']; simpl in *. assumption.
Qed.

Lemma at_most_one_construction cs env :
  constructions (history (run cs (fresh_process env)).2) <= 1.
Proof.
  pose proof (run_constructions_bound cs (fresh_process env) eq_refl) as H.
  destruct (globals_HF_TOKENIZER (run cs (fresh_process env)).2); lia.
Qed.

End CacheProperties.

(* ===================================================================== *)
(** ** The construction step and its failures *)
(* ===================================================================== *)

Section ConstructionProperties.

Context {tokenizer : Type}.
Variable json_loads : string -> result pyvalue.
Variable lib : transformers tokenizer.

Implicit Types (p : process tokenizer) (tok : tokenizer).

Local Abbreviation body := (huggingface_tokenizer_body json_loads lib).
Local Abbreviation accessor := (huggingface_tokenizer json_loads lib).

(** C8. A call that reaches the construction step (global unset, import
    done, model name present, options parsed to [v]) writes
    [TOKENIZERS_PARALLELISM = "false"] exactly once, before anything is
    constructed: no construction precedes the write in the history, the
    library is consulted in the environment that already holds the flag,
    and the flag is still there when the call ends. *)
Theorem parallelism_flag_written_before_construction p model v :
  uninitialized p ->
  import_AutoTokenizer lib = None ->
  os_environ p !! "HF_TOKENIZER_MODEL" = Some model -> model <> "" ->
  _safe_json_loads_ json_loads (os_environ p !! "HF_TOKENIZER_ARGS") = Returns v ->
  os_environ (accessor p).2 !! "TOKENIZERS_PARALLELISM" = Some "false"
  /\ exists rest,
       history (accessor p).2 = (history p ++ reads_before_parse ++ flag_write :: rest)%list
       /\ List.filter is_environ_write (reads_before_parse ++ flag_write :: rest)%list
          = [flag_write]
       /\ count_events is_construction reads_before_parse = 0
       /\ match v with
          | PyDict kwargs =>
              let answer := from_pretrained lib (the_flag (os_environ p)) model kwargs in
              the_flag (os_environ p) !! "TOKENIZERS_PARALLELISM" = Some "false"
              /\ count_events is_construction rest = 1
              /\ (forall tok, answer = Returns tok -> (accessor p).1 = Returns (Some tok))
              /\ (forall e, answer = Raises e -> (accessor p).1 = after_handler (Raises e))
          | _ => count_events is_construction rest = 0
          end.
Proof.
  destruct p as [g env h]; unfold uninitialized; simpl.
  intros -> Himp Hmodel Hne Hp.
  assert (Hflag : the_flag env !! "TOKENIZERS_PARALLELISM" = Some "false")
    by apply lookup_insert_eq.
  destruct (is_dict v) eqn:Hd.
  - destruct v as [| | | | | |kwargs]; try discriminate.
    destruct (from_pretrained lib (the_flag env) model kwargs) as [tok|e] eqn:Hc.
    + rewrite (accessor_of_body _ _ _ _ _
                 (body_constructs json_loads lib env h model kwargs tok Himp Hmodel Hne Hp Hc)).
      simpl. split; [exact Hflag|]. eexists. split; [reflexivity|].
      repeat split; try assumption; try reflexivity.
      * intros tok' [= <-]. reflexivity.
      * intros e [=].
    + rewrite (accessor_of_body _ _ _ _ _
                 (body_construction_fails json_loads lib env h model kwargs e Himp Hmodel Hne Hp Hc)).
      split; [exact Hflag|]. eexists. split; [reflexivity|].
      repeat split; try assumption; try reflexivity.
      * intros tok' [=].
      * intros e' [= <-]. reflexivity.
  - rewrite (accessor_of_body _ _ _ _ _
               (body_not_a_mapping json_loads lib env h model v Himp Hmodel Hne Hp Hd)).
    split; [exact Hflag|]. exists []. split; [reflexivity|].
    repeat split. destruct v; try reflexivity; discriminate.
Qed.

Lemma handler_wraps p e p' :
  body p = (Raises e, p') ->
  isinstance e Exception = true ->
  isinstance e NameError = false ->
  accessor p = (Raises (Exn RuntimeError load_failure_message (Some e)), p')
  /\ uninitialized p'.
Proof.
  intros Hb Hexc Hname.
  rewrite (accessor_of_body _ _ _ _ _ Hb). simpl. rewrite Hexc, Hname.
  split; [reflexivity|]. exact (proj2 (body_raises_uncached json_loads lib p e p' Hb)).
Qed.

(** C2, as the code has it. An exception [e] raised in the [try] body that
    is an instance of [Exception] and not of [NameError] comes out as a
    [RuntimeError] carrying the advice to unset [HF_TOKENIZER_MODEL], with
    [e] as its cause, and the global stays unset. *)
Theorem construction_failure_is_wrapped p e p' :
  body p = (Raises e, p') ->
  isinstance e Exception = true ->
  isinstance e NameError = false ->
  accessor p = (Raises (Exn RuntimeError load_failure_message (Some e)), p')
  /\ uninitialized p'
  /\ mentions load_failure_message "Unset environment variable 'HF_TOKENIZER_MODEL'" = true.
Proof.
  intros Hb Hexc Hname.
  destruct (handler_wraps p e p' Hb Hexc Hname) as [Ha Hu].
  repeat split; assumption.
Qed.

(** Any [NameError], the library's own included, is taken for the signal
    that no model is configured. *)
Lemma name_error_is_swallowed p e p' :
  body p = (Raises e, p') ->
  isinstance e Exception = true ->
  isinstance e NameError = true ->
  accessor p = (Returns None, p').
Proof.
  intros Hb Hexc Hname.
  rewrite (accessor_of_body _ _ _ _ _ Hb). simpl. rewrite Hexc, Hname. reflexivity.
Qed.

(** What is not an [Exception] leaves the accessor as it was raised. *)
Lemma base_exception_passes_through p e p' :
  body p = (Raises e, p') ->
  isinstance e Exception = false ->
  accessor p = (Raises e, p').
Proof.
  intros Hb Hexc.
  rewrite (accessor_of_body _ _ _ _ _ Hb). simpl. rewrite Hexc. reflexivity.
Qed.

(** The library's refusal to construct reaches the handler. *)
Lemma library_failure_is_wrapped p model kwargs e :
  uninitialized p ->
  import_AutoTokenizer lib = None ->
  os_environ p !! "HF_TOKENIZER_MODEL" = Some model -> model <> "" ->
  _safe_json_loads_ json_loads (os_environ p !! "HF_TOKENIZER_ARGS") = Returns (PyDict kwargs) ->
  from_pretrained lib (the_flag (os_environ p)) model kwargs = Raises e ->
  isinstance e Exception = true ->
  isinstance e NameError = false ->
  (accessor p).1 = Raises (Exn RuntimeError load_failure_message (Some e))
  /\ uninitialized (accessor p).2.
Proof.
  destruct p as [g env h]; unfold uninitialized; simpl.
  intros -> Himp Hmodel Hne Hp Hc Hexc Hname.
  pose proof (body_construction_fails json_loads lib env h model kwargs e
                Himp Hmodel Hne Hp Hc) as Hb.
  destruct (handler_wraps _ _ _ Hb Hexc Hname) as [-> Hu].
  split; [reflexivity|exact Hu].
Qed.

End ConstructionProperties.

Lemma parallelism_flag_written_before_construction_witness :
  os_environ (huggingface_tokenizer Sample.json_loads Sample.hub
                (fresh_process Sample.env_model)).2
    !! "TOKENIZERS_PARALLELISM" = Some "false".
Proof.
  refine (proj1 (parallelism_flag_written_before_construction
                   Sample.json_loads Sample.hub (fresh_process Sample.env_model)
                   "bert-base-uncased" (PyDict []) _ _ _ _ _)).
  - reflexivity.
  - reflexivity.
  - reflexivity.
  - discriminate.
  - reflexivity.
Defined.

Lemma construction_failure_is_wrapped_witness :
  let env := <["HF_TOKENIZER_MODEL" := "gpt-unknown"]> Sample.env_model in
  (huggingface_tokenizer Sample.json_loads Sample.hub (fresh_process env)).1
  = Raises (Exn RuntimeError load_failure_message
              (Some (Exn OSError "gpt-unknown is not a valid model identifier" None))).
Proof.
  intros env.
  refine (f_equal fst (proj1 (construction_failure_is_wrapped
                   Sample.json_loads Sample.hub (fresh_process env)
                   (Exn OSError "gpt-unknown is not a valid model identifier" None)
                   (Process None (the_flag env)
                      (reads_before_parse
                         ++ [flag_write; EvFromPretrained "gpt-unknown" [] false]))
                   _ _ _))).
  - vm_compute. reflexivity.
  - reflexivity.
  - reflexivity.
Defined.

(** C2 as it is worded fails: a [NameError] raised by the library's
    construction call is not the accessor's own signal, yet the accessor
    raises nothing and returns [None]. *)
Lemma library_name_error_returns_None :
  let p := fresh_process Sample.env_model in
  let e := Exn NameError "name 'tokenizer_class' is not defined" None in
  from_pretrained Sample.broken_remote_code (the_flag Sample.env_model) "bert-base-uncased" []
  = Raises e
  /\ e <> Exn NameError model_unset_message None
  /\ (huggingface_tokenizer Sample.json_loads Sample.broken_remote_code p).1 = Returns None
  /\ ~ (exists e', (huggingface_tokenizer Sample.json_loads Sample.broken_remote_code p).1
                   = Raises e').
Proof.
  repeat split.
  - discriminate.
  - intros [e' H]. vm_compute in H. discriminate.
Qed.

Example interrupt_is_not_wrapped :
  (huggingface_tokenizer Sample.json_loads Sample.interrupted
     (fresh_process Sample.env_model)).1
  = Raises (Exn KeyboardInterrupt "" None).
Proof. reflexivity. Qed.

(* ===================================================================== *)
(** ** Malformed options, and a model name that is absent or empty *)
(* ===================================================================== *)

Section ConfigurationProperties.

Context {tokenizer : Type}.
Variable json_loads : string -> result pyvalue.
Variable lib : transformers tokenizer.

Implicit Types (p : process tokenizer) (tok : tokenizer).

Local Abbreviation accessor := (huggingface_tokenizer json_loads lib).

(** C1, as the code has it. In the uninitialised state, once the import
    has succeeded, with a non-empty model name and a non-empty options
    text that [json.loads] rejects, the accessor raises the [RuntimeError]
    of its handler; the [ValueError] naming the options text is its cause,
    and the decode error the cause of that.  Nothing is cached, no flag is
    written, and a second call goes through the same steps again. *)
Theorem malformed_options_fail_wrapped p model args e :
  uninitialized p ->
  import_AutoTokenizer lib = None ->
  os_environ p !! "HF_TOKENIZER_MODEL" = Some model -> model <> "" ->
  os_environ p !! "HF_TOKENIZER_ARGS" = Some args -> args <> "" ->
  json_loads args = Raises e ->
  isinstance e JSONDecodeError = true ->
  let failure :=
    Exn RuntimeError load_failure_message
      (Some (Exn ValueError ("Failed to decode JSON string " +:+ py_repr args) (Some e))) in
  let p1 := Process None (os_environ p) (history p ++ reads_before_parse) in
  let p2 := Process None (os_environ p)
              (history p ++ reads_before_parse ++ reads_before_parse) in
  accessor p = (Raises failure, p1) /\ accessor p1 = (Raises failure, p2).
Proof.
  destruct p as [g env h]; unfold uninitialized; simpl.
  intros -> Himp Hmodel Hne Hargs Hane Hj He.
  assert (Hp : _safe_json_loads_ json_loads (env !! "HF_TOKENIZER_ARGS")
               = Raises (Exn ValueError (decode_failure_message args) (Some e))).
  { rewrite Hargs. destruct args as [|c a]; [congruence|].
    unfold _safe_json_loads_. rewrite Hj, He. reflexivity. }
  split.
  - rewrite (accessor_of_body _ _ _ _ _
               (body_parse_fails json_loads lib env h model _ Himp Hmodel Hne Hp)).
    reflexivity.
  - rewrite (accessor_of_body _ _ _ _ _
               (body_parse_fails json_loads lib env _ model _ Himp Hmodel Hne Hp)).
    rewrite <- app_assoc. reflexivity.
Qed.

(** With no model name, or an empty one, a call that gets past the import
    returns [None] and changes nothing but the history. *)
Lemma absent_model_returns_None p :
  uninitialized p ->
  import_AutoTokenizer lib = None ->
  truthy (os_environ p !! "HF_TOKENIZER_MODEL") = false ->
  accessor p
  = (Returns None,
     Process None (os_environ p)
       (history p ++ [EvImportTransformers; EvEnvironGet "HF_TOKENIZER_MODEL"])).
Proof.
  destruct p as [g env h]; unfold uninitialized; simpl. intros -> Himp Hm.
  rewrite (accessor_of_body _ _ _ _ _ (body_model_absent json_loads lib env h Himp Hm)).
  reflexivity.
Qed.

(** C9, as the code has it. A model name set to the empty text is treated
    exactly as a missing one: the two calls have the same outcome, leave
    the same global and the same history, and neither writes to the
    environment.  In the uninitialised state, once the import has
    succeeded, that outcome is [None], with nothing raised, nothing
    constructed and nothing cached. *)
Theorem empty_model_is_unset p :
  os_environ p !! "HF_TOKENIZER_MODEL" = Some "" ->
  let q := setenv (delete "HF_TOKENIZER_MODEL") p in
  (accessor p).1 = (accessor q).1
  /\ globals_HF_TOKENIZER (accessor p).2 = globals_HF_TOKENIZER (accessor q).2
  /\ history (accessor p).2 = history (accessor q).2
  /\ os_environ (accessor p).2 = os_environ p
  /\ os_environ (accessor q).2 = os_environ q
  /\ (uninitialized p ->
      import_AutoTokenizer lib = None ->
      (accessor p).1 = Returns None
      /\ uninitialized (accessor p).2
      /\ count_events is_construction (history (accessor p).2)
         = count_events is_construction (history p)).
Proof.
  destruct p as [g env h]; simpl. intros Hm.
  assert (Hp : truthy (env !! "HF_TOKENIZER_MODEL") = false) by (rewrite Hm; reflexivity).
  assert (Hq : truthy (delete "HF_TOKENIZER_MODEL" env !! "HF_TOKENIZER_MODEL") = false)
    by (rewrite lookup_delete_eq; reflexivity).
  unfold setenv; simpl.
  destruct g as [tok|].
  - rewrite !accessor_cached. simpl. repeat split; intros; discriminate.
  - destruct (import_AutoTokenizer lib) as [e|] eqn:Himp.
    + rewrite !(accessor_of_body _ _ _ _ _ (body_import_fails json_loads lib _ h e Himp)).
      simpl. repeat split; intros; discriminate.
    + rewrite (accessor_of_body _ _ _ _ _ (body_model_absent json_loads lib env h Himp Hp)).
      rewrite (accessor_of_body _ _ _ _ _ (body_model_absent json_loads lib _ h Himp Hq)).
      simpl. repeat split.
      rewrite count_events_app. unfold count_events; simpl; lia.
Qed.

End ConfigurationProperties.

Lemma malformed_options_fail_wrapped_witness :
  (huggingface_tokenizer Sample.json_loads Sample.hub (fresh_process Sample.env_bad_args)).1
  = Raises
      (Exn RuntimeError load_failure_message
         (Some (Exn ValueError ("Failed to decode JSON string " +:+ py_repr "not json")
                  (Some (Exn JSONDecodeError "Expecting value: line 1 column 1 (char 0)"
                           None))))).
Proof.
  refine (f_equal fst (proj1 (malformed_options_fail_wrapped
                   Sample.json_loads Sample.hub (fresh_process Sample.env_bad_args)
                   "bert-base-uncased" "not json"
                   (Exn JSONDecodeError "Expecting value: line 1 column 1 (char 0)" None)
                   _ _ _ _ _ _ _ _))).
  - reflexivity.
  - reflexivity.
  - reflexivity.
  - discriminate.
  - reflexivity.
  - discriminate.
  - reflexivity.
  - reflexivity.
Defined.

(** C1 as it is worded fails: with [HF_TOKENIZER_ARGS="not json"] the
    error that leaves the accessor is not a [ValueError], and its message
    does not mention the options text. *)
Lemma malformed_options_error_is_not_a_ValueError :
  ~ (exists e,
       (huggingface_tokenizer Sample.json_loads Sample.hub
          (fresh_process Sample.env_bad_args)).1 = Raises e
       /\ isinstance e ValueError = true
       /\ mentions (exc_msg e) "not json" = true).
Proof.
  intros (e & He & Hv & _). vm_compute in He. injection He as <-.
  vm_compute in Hv. discriminate.
Qed.

Lemma empty_model_is_unset_witness :
  (huggingface_tokenizer Sample.json_loads Sample.hub
     (fresh_process Sample.env_empty_model)).1
  = (huggingface_tokenizer Sample.json_loads Sample.hub
       (setenv (delete "HF_TOKENIZER_MODEL") (fresh_process Sample.env_empty_model))).1.
Proof.
  refine (proj1 (empty_model_is_unset Sample.json_loads Sample.hub
                   (fresh_process Sample.env_empty_model) _)).
  reflexivity.
Defined.

(** C9 as it is worded fails: once a tokenizer is cached, a call made
    with [HF_TOKENIZER_MODEL] set to the empty text returns the cached
    object, not [None]. *)
Lemma empty_model_after_construction_returns_cached :
  let p := Process (Some (Sample.TokenizerAt 4096)) Sample.env_empty_model [] in
  os_environ p !! "HF_TOKENIZER_MODEL" = Some ""
  /\ (huggingface_tokenizer Sample.json_loads Sample.hub p).1
     = Returns (Some (Sample.TokenizerAt 4096))
  /\ (huggingface_tokenizer Sample.json_loads Sample.hub p).1 <> Returns None.
Proof. repeat split. discriminate. Qed.

(** C4 on the code: with [HF_TOKENIZER_MODEL] unset in a fresh process
    where [transformers] cannot be imported, the accessor raises the
    [RuntimeError] of its handler instead of returning [None]; the import
    on line 53 runs before the variable is read on line 55. *)
Theorem unset_model_without_transformers_raises :
  huggingface_tokenizer Sample.json_loads Sample.not_installed (fresh_process ∅)
  = (Raises (Exn RuntimeError load_failure_message
               (Some (Exn ModuleNotFoundError "No module named 'transformers'" None))),
     Process None ∅ [EvImportTransformers]).
Proof. reflexivity. Qed.

Example repr_not_json : py_repr "not json" = "'not json'".
Proof. reflexivity. Qed.

Example isinstance_json_error :
  isinstance (Exn JSONDecodeError "Expecting value" None) ValueError = true.
Proof. reflexivity. Qed.

Example isinstance_not_name :
  isinstance (Exn JSONDecodeError "Expecting value" None) NameError = false.
Proof. reflexivity. Qed.

Example sample_first_call :
  huggingface_tokenizer Sample.json_loads Sample.hub (fresh_process Sample.env_model)
  = (Returns (Some (Sample.TokenizerAt 4096)),
     Process (Some (Sample.TokenizerAt 4096))
       (<["TOKENIZERS_PARALLELISM" := "false"]> Sample.env_model)
       [EvImportTransformers; EvEnvironGet "HF_TOKENIZER_MODEL";
        EvEnvironGet "HF_TOKENIZER_ARGS";
        EvEnvironSet "TOKENIZERS_PARALLELISM" "false";
        EvFromPretrained "bert-base-uncased" [] true;
        EvLoggerWarning "Huggingface Tokenizer has been loaded: bert-base-uncased"]).
Proof. vm_compute. reflexivity. Qed.

Example sample_unset :
  huggingface_tokenizer Sample.json_loads Sample.hub (fresh_process ∅)
  = (Returns None,
     Process None ∅ [EvImportTransformers; EvEnvironGet "HF_TOKENIZER_MODEL"]).
Proof. reflexivity. Qed.

(** Options that parse to a list: the flag is written, the unpacking
    fails before the library is called, and the handler wraps the
    [TypeError]. *)
Example sample_list_options :
  huggingface_tokenizer Sample.json_loads Sample.hub (fresh_process Sample.env_list_args)
  = (Raises (Exn RuntimeError load_failure_message
               (Some (Exn TypeError
                        (Sample.callee +:+ " argument after ** must be a mapping, not list")
                        None))),
     Process None (the_flag Sample.env_list_args) (reads_before_parse ++ [flag_write])).
Proof. vm_compute. reflexivity. Qed.

(* ===================================================================== *)
(** ** The accessor as its callers see it *)
(* ===================================================================== *)

(** The six ways through a call made while the global is unset. *)
Ltac accessor_cases jl lib env h :=
  let e := fresh "e" in
  let model := fresh "model" in
  let v := fresh "v" in
  let tok := fresh "tok" in
  let Himp := fresh "Himp" in
  let Hm := fresh "Hm" in
  let Hmodel := fresh "Hmodel" in
  let Hne := fresh "Hne" in
  let Hp := fresh "Hp" in
  let Hd := fresh "Hd" in
  let Hc := fresh "Hc" in
  destruct (import_AutoTokenizer lib) as [e|] eqn:Himp;
  [ rewrite !(accessor_of_body _ _ _ _ _ (body_import_fails jl lib env h e Himp))
  | destruct (truthy (env !! "HF_TOKENIZER_MODEL")) eqn:Hm;
    [ destruct (env !! "HF_TOKENIZER_MODEL") as [model|] eqn:Hmodel; [|discriminate];
      assert (Hne : model <> "") by (intros ->; discriminate);
      destruct (_safe_json_loads_ jl (env !! "HF_TOKENIZER_ARGS")) as [v|e] eqn:Hp;
      [ destruct (is_dict v) eqn:Hd;
        [ destruct v as [| | | | | |kwargs]; try discriminate;
          destruct (from_pretrained lib (the_flag env) model kwargs) as [tok|e] eqn:Hc;
          [ rewrite !(accessor_of_body _ _ _ _ _
                        (body_constructs jl lib env h model kwargs tok Himp Hmodel Hne Hp Hc))
          | rewrite !(accessor_of_body _ _ _ _ _
                        (body_construction_fails jl lib env h model kwargs e
                           Himp Hmodel Hne Hp Hc)) ]
        | rewrite !(accessor_of_body _ _ _ _ _
                      (body_not_a_mapping jl lib env h model v Himp Hmodel Hne Hp Hd)) ]
      | rewrite !(accessor_of_body _ _ _ _ _
                    (body_parse_fails jl lib env h model e Himp Hmodel Hne Hp)) ]
    | rewrite !(accessor_of_body _ _ _ _ _ (body_model_absent jl lib env h Himp Hm)) ] ].

Section CallerView.

Context {tokenizer : Type}.
Variable json_loads : string -> result pyvalue.

Implicit Types (lib : transformers tokenizer) (p : process tokenizer) (tok : tokenizer).
Implicit Types (cs : list (call tokenizer)).

Local Abbreviation accessor := (huggingface_tokenizer json_loads).
Local Abbreviation run := (run_calls json_loads).

Lemma after_handler_raises_not_Some e tok :
  @after_handler tokenizer (Raises e) <> Returns (Some tok).
Proof.
  unfold after_handler.
  destruct (isinstance e Exception); [destruct (isinstance e NameError)|]; discriminate.
Qed.

(** X1. An exception of class [Exception] that leaves the accessor is
    always the handler's [RuntimeError]: it carries the advice message and
    has as cause an [Exception] that is not a [NameError].  No
    [ValueError], [TypeError], [ImportError] or [NameError] reaches the
    caller. *)
Theorem accessor_raises_only_RuntimeError lib p e :
  (accessor lib p).1 = Raises e ->
  isinstance e Exception = true ->
  exists e0,
    e = Exn RuntimeError load_failure_message (Some e0)
    /\ isinstance e0 Exception = true
    /\ isinstance e0 NameError = false.
Proof.
  destruct (huggingface_tokenizer_body json_loads lib p) as [r p'] eqn:Hb.
  rewrite (accessor_of_body _ _ _ _ _ Hb). simpl.
  destruct r as [a|e0]; simpl; [discriminate|].
  destruct (isinstance e0 Exception) eqn:Hexc.
  - destruct (isinstance e0 NameError) eqn:Hname; [discriminate|].
    intros [= <-] _. exists e0. auto.
  - intros [= <-] He. congruence.
Qed.

Lemma returns_iff_cached lib p tok :
  (accessor lib p).1 = Returns (Some tok)
  <-> globals_HF_TOKENIZER (accessor lib p).2 = Some tok.
Proof.
  destruct p as [[tok0|] env h].
  - rewrite accessor_cached. simpl. split; intros [= ->]; reflexivity.
  - accessor_cases json_loads lib env h; simpl;
      try (split;
           [intros H;
            first [discriminate H | exfalso; exact (after_handler_raises_not_Some _ _ H)]
           |discriminate]).
    split; intros [= ->]; reflexivity.
Qed.

(** X2. The result and the cache agree after every call: the call returns
    a tokenizer exactly when the global holds that tokenizer afterwards. A
    call that raises or returns [None] leaves the global unset. *)
Theorem result_matches_cache lib p tok :
  (huggingface_tokenizer json_loads lib p).1 = Returns (Some tok)
  <-> initialized tok (huggingface_tokenizer json_loads lib p).2.
Proof. apply returns_iff_cached. Qed.

(** X3. The accessor writes one environment variable at most: every
    variable other than [TOKENIZERS_PARALLELISM] has after the call the
    value it had before, on every path. *)
Theorem environment_frame lib p (key : string) :
  key <> "TOKENIZERS_PARALLELISM" ->
  os_environ (huggingface_tokenizer json_loads lib p).2 !! key = os_environ p !! key.
Proof.
  intros Hk. destruct p as [[tok0|] env h].
  - rewrite accessor_cached. reflexivity.
  - accessor_cases json_loads lib env h; simpl; try reflexivity;
      unfold the_flag; apply lookup_insert_ne; congruence.
Qed.

(** X4. In an environment where [TOKENIZERS_PARALLELISM] is already
    ["false"], no call changes the environment at all. *)
Theorem environment_unchanged_when_flag_set lib p :
  os_environ p !! "TOKENIZERS_PARALLELISM" = Some "false" ->
  os_environ (huggingface_tokenizer json_loads lib p).2 = os_environ p.
Proof.
  intros Hf. destruct p as [[tok0|] env h].
  - rewrite accessor_cached. reflexivity.
  - simpl in Hf.
    accessor_cases json_loads lib env h; simpl; try reflexivity;
      unfold the_flag; apply insert_id; exact Hf.
Qed.

(** X5. The first successful call: with the global unset, the import
    done, a non-empty model name and options that parse to an object,
    the model name and the object's items go to [from_pretrained]
    unchanged; when it answers with a tokenizer, that tokenizer is
    returned and cached, and one warning naming the model is logged, after
    the flag was written. *)
Theorem first_construction lib p model kwargs tok :
  uninitialized p ->
  import_AutoTokenizer lib = None ->
  os_environ p !! "HF_TOKENIZER_MODEL" = Some model -> model <> "" ->
  _safe_json_loads_ json_loads (os_environ p !! "HF_TOKENIZER_ARGS") = Returns (PyDict kwargs) ->
  from_pretrained lib (the_flag (os_environ p)) model kwargs = Returns tok ->
  accessor lib p
  = (Returns (Some tok),
     Process (Some tok) (the_flag (os_environ p))
       (history p ++ reads_before_parse
          ++ [flag_write; EvFromPretrained model kwargs true;
              EvLoggerWarning ("Huggingface Tokenizer has been loaded: " +:+ model)])).
Proof.
  destruct p as [g env h]; unfold uninitialized; simpl.
  intros -> Himp Hmodel Hne Hp Hc.
  rewrite (accessor_of_body _ _ _ _ _
             (body_constructs json_loads lib env h model kwargs tok Himp Hmodel Hne Hp Hc)).
  reflexivity.
Qed.

(** X7. Options that parse to something other than an object: the call
    fails with the handler's [RuntimeError] caused by a [TypeError], the
    library is never asked to construct and nothing is cached, but the
    flag has been written to the environment all the same. *)
Theorem non_mapping_options_fail_after_flag lib p model v :
  uninitialized p ->
  import_AutoTokenizer lib = None ->
  os_environ p !! "HF_TOKENIZER_MODEL" = Some model -> model <> "" ->
  _safe_json_loads_ json_loads (os_environ p !! "HF_TOKENIZER_ARGS") = Returns v ->
  is_dict v = false ->
  (exists e0,
     (accessor lib p).1 = Raises (Exn RuntimeError load_failure_message (Some e0))
     /\ exc_type e0 = TypeError)
  /\ uninitialized (accessor lib p).2
  /\ os_environ (accessor lib p).2 = the_flag (os_environ p)
  /\ history (accessor lib p).2 = (history p ++ reads_before_parse ++ [flag_write])%list.
Proof.
  destruct p as [g env h]; unfold uninitialized; simpl.
  intros -> Himp Hmodel Hne Hp Hd.
  rewrite (accessor_of_body _ _ _ _ _
             (body_not_a_mapping json_loads lib env h model v Himp Hmodel Hne Hp Hd)).
  simpl. repeat split. eexists. split; reflexivity.
Qed.

(** X11. When the import of [transformers] raises (an [Exception] that is
    not a [NameError]), the call fails with the handler's [RuntimeError]
    before any environment variable is read: the outcome is the same
    whatever the environment holds, and the environment is left as it
    was. *)
Theorem import_failure_precedes_environment lib p e :
  uninitialized p ->
  import_AutoTokenizer lib = Some e ->
  isinstance e Exception = true ->
  isinstance e NameError = false ->
  accessor lib p
  = (Raises (Exn RuntimeError load_failure_message (Some e)),
     Process None (os_environ p) (history p ++ [EvImportTransformers])).
Proof.
  destruct p as [g env h]; unfold uninitialized; simpl.
  intros -> Himp Hexc Hname.
  rewrite (accessor_of_body _ _ _ _ _ (body_import_fails json_loads lib env h e Himp)).
  simpl. rewrite Hexc, Hname. reflexivity.
Qed.

(** X9. One tokenizer per process: over any sequence of calls, from any
    starting state, with any libraries and any changes to the environment
    in between, all the calls that return a tokenizer return the same
    one. *)
Theorem tokenizer_is_a_singleton cs p (t1 t2 : tokenizer) :
  In (Returns (Some t1)) (run cs p).1 ->
  In (Returns (Some t2)) (run cs p).1 ->
  t1 = t2.
Proof.
  revert p. induction cs as [|c cs IH]; intros p; simpl; [intros []|].
  set (q := setenv (call_setenv c) p).
  destruct (accessor (call_library c) q) as [r p'] eqn:Hstep.
  destruct (run cs p') as [rs p''] eqn:Hrun. simpl.
  assert (Hall : forall t, r = Returns (Some t) ->
                 forall x, In x (r :: rs) -> x = Returns (Some t)).
  { intros t -> x Hx.
    assert (Hi : initialized t p').
    { pose proof (proj1 (returns_iff_cached (call_library c) q t)) as H.
      rewrite Hstep in H. exact (H eq_refl). }
    destruct Hx as [<-|Hx]; [reflexivity|].
    pose proof (proj1 (run_initialized json_loads cs p' t Hi)) as Hf.
    rewrite Hrun in Hf. simpl in Hf.
    rewrite Forall_forall in Hf. apply Hf. apply list_elem_of_In. exact Hx. }
  intros H1 H2.
  destruct r as [[t|]|e].
  - pose proof (Hall t eq_refl _ H1) as E1. pose proof (Hall t eq_refl _ H2) as E2.
    congruence.
  - destruct H1 as [H1|H1]; [discriminate|]. destruct H2 as [H2|H2]; [discriminate|].
    specialize (IH p'). rewrite Hrun in IH. exact (IH H1 H2).
  - destruct H1 as [H1|H1]; [discriminate|]. destruct H2 as [H2|H2]; [discriminate|].
    specialize (IH p'). rewrite Hrun in IH. exact (IH H1 H2).
Qed.

(** X10. A failure is not remembered: after a call that did not return a
    tokenizer (it raised, or returned [None]), a later call that finds a
    working configuration constructs the tokenizer, returns it and caches
    it. *)
Theorem failure_is_recoverable lib1 lib2 p f model kwargs tok :
  (forall t, (accessor lib1 p).1 <> Returns (Some t)) ->
  import_AutoTokenizer lib2 = None ->
  f (os_environ (accessor lib1 p).2) !! "HF_TOKENIZER_MODEL" = Some model ->
  model <> "" ->
  _safe_json_loads_ json_loads (f (os_environ (accessor lib1 p).2) !! "HF_TOKENIZER_ARGS")
  = Returns (PyDict kwargs) ->
  from_pretrained lib2 (the_flag (f (os_environ (accessor lib1 p).2))) model kwargs
  = Returns tok ->
  (accessor lib2 (setenv f (accessor lib1 p).2)).1 = Returns (Some tok)
  /\ initialized tok (accessor lib2 (setenv f (accessor lib1 p).2)).2.
Proof.
  intros Hfail Himp Hmodel Hne Hp Hc.
  assert (Hg : globals_HF_TOKENIZER (accessor lib1 p).2 = None).
  { destruct (globals_HF_TOKENIZER (accessor lib1 p).2) as [t|] eqn:Hg; [|reflexivity].
    exfalso. exact (Hfail t (proj2 (returns_iff_cached lib1 p t) Hg)). }
  destruct (accessor lib1 p) as [r [g env h]]. simpl in *. subst g.
  unfold setenv; simpl.
  rewrite (accessor_of_body _ _ _ _ _
             (body_constructs json_loads lib2 (f env) h model kwargs tok
                Himp Hmodel Hne Hp Hc)).
  split; reflexivity.
Qed.

Lemma accessor_keeps_warning_count lib p :
  count_events is_warning (history p)
  = count_events is_successful_construction (history p) ->
  count_events is_warning (history (accessor lib p).2)
  = count_events is_successful_construction (history (accessor lib p).2).
Proof.
  destruct p as [[tok0|] env h]; intros Hinv; simpl in Hinv.
  - rewrite accessor_cached. exact Hinv.
  - accessor_cases json_loads lib env h; simpl;
      rewrite !count_events_app, Hinv; unfold count_events; simpl; lia.
Qed.

Lemma run_keeps_warning_count cs p :
  count_events is_warning (history p)
  = count_events is_successful_construction (history p) ->
  count_events is_warning (history (run cs p).2)
  = count_events is_successful_construction (history (run cs p).2).
Proof.
  revert p. induction cs as [|c cs IH]; intros p Hinv; simpl; [exact Hinv|].
  pose proof (accessor_keeps_warning_count (call_library c) (setenv (call_setenv c) p) Hinv)
    as Hstep.
  destruct (accessor (call_library c) (setenv (call_setenv c) p)) as [r p'].
  specialize (IH p' Hstep).
  destruct (run cs p') as [rs p'']. exact IH.
Qed.

(** X12. The warning ["Huggingface Tokenizer has been loaded"] is logged
    once for each successful construction and never otherwise, so a
    process that started fresh logs it at most once, whatever calls
    follow. *)
Theorem warning_logged_at_most_once cs env :
  count_events is_warning (history (run cs (fresh_process env)).2)
  = count_events is_successful_construction (history (run cs (fresh_process env)).2)
  /\ count_events is_warning (history (run cs (fresh_process env)).2) <= 1.
Proof.
  pose proof (run_keeps_warning_count cs (fresh_process env) eq_refl) as Heq.
  split; [exact Heq|]. rewrite Heq. apply at_most_one_construction.
Qed.

(** C3. A call that returns a tokenizer leaves it in the global: if the
    global was unset, that call is the one successful construction the
    history gains.  From then on every call, whatever the environment has
    become and whatever the library would now answer, returns that same
    object, adds no event to the history (no read of the environment, no
    construction) and leaves the global set.  So no run of calls from a
    fresh process, under any libraries and environments, ever counts
    more than one successful construction. *)
Theorem cached_tokenizer_is_kept lib p tok cs :
  (huggingface_tokenizer json_loads lib p).1 = Returns (Some tok) ->
  initialized tok (huggingface_tokenizer json_loads lib p).2
  /\ (uninitialized p ->
      count_events is_successful_construction
        (history (huggingface_tokenizer json_loads lib p).2)
      = S (count_events is_successful_construction (history p)))
  /\ Forall (fun r => r = Returns (Some tok))
       (run cs (huggingface_tokenizer json_loads lib p).2).1
  /\ initialized tok (run cs (huggingface_tokenizer json_loads lib p).2).2
  /\ history (run cs (huggingface_tokenizer json_loads lib p).2).2
     = history (huggingface_tokenizer json_loads lib p).2
  /\ (forall cs0 env,
        count_events is_successful_construction
          (history (run cs0 (fresh_process env)).2) <= 1).
Proof.
  intros Hret.
  assert (Hinit : initialized tok (accessor lib p).2)
    by exact (proj1 (returns_iff_cached lib p tok) Hret).
  destruct (run_initialized json_loads cs _ tok Hinit) as (Hrs & Hg & Hh).
  split; [exact Hinit|]. split.
  - intros Hu.
    destruct (accessor_uninitialized_step json_loads lib p Hu)
      as [[Hn _]|(tok' & _ & _ & Hc)]; [|exact Hc].
    unfold initialized in Hinit. rewrite Hn in Hinit. discriminate.
  - repeat split; try assumption.
    intros cs0 env.
    pose proof (run_constructions_bound json_loads cs0 (fresh_process env) eq_refl) as H.
    destruct (globals_HF_TOKENIZER (run cs0 (fresh_process env)).2); lia.
Qed.

End CallerView.

Lemma cached_tokenizer_is_kept_witness :
  let p1 := (huggingface_tokenizer Sample.json_loads Sample.hub
               (fresh_process Sample.env_model)).2 in
  let cs := [Call Sample.not_installed (fun _ => ∅);
             Call Sample.broken_remote_code (fun env => <["HF_TOKENIZER_MODEL" := "gpt2"]> env)] in
  initialized (Sample.TokenizerAt 4096) p1
  /\ Forall (fun r => r = Returns (Some (Sample.TokenizerAt 4096)))
       (run_calls Sample.json_loads cs p1).1
  /\ history (run_calls Sample.json_loads cs p1).2 = history p1.
Proof.
  intros p1 cs.
  destruct (cached_tokenizer_is_kept Sample.json_loads Sample.hub
              (fresh_process Sample.env_model) (Sample.TokenizerAt 4096) cs)
    as (Hinit & _ & Hrs & _ & Hh & _).
  - reflexivity.
  - exact (conj Hinit (conj Hrs Hh)).
Defined.

(** X6. With [HF_TOKENIZER_ARGS] unset or empty, [json.loads] is never
    consulted: the call has the same result and the same effects whatever
    [json.loads] would answer. *)
Theorem empty_options_skip_json_loads {tokenizer : Type}
    (json_loads1 json_loads2 : string -> result pyvalue)
    (lib : transformers tokenizer) (p : process tokenizer) :
  truthy (os_environ p !! "HF_TOKENIZER_ARGS") = false ->
  huggingface_tokenizer json_loads1 lib p = huggingface_tokenizer json_loads2 lib p.
Proof.
  intros Hargs.
  assert (Hparse : _safe_json_loads_ json_loads1 (os_environ p !! "HF_TOKENIZER_ARGS")
                   = _safe_json_loads_ json_loads2 (os_environ p !! "HF_TOKENIZER_ARGS")).
  { destruct (os_environ p !! "HF_TOKENIZER_ARGS") as [[|c a]|];
      simpl in *; try discriminate; reflexivity. }
  unfold huggingface_tokenizer, try_except_Exception.
  assert (Hbody : huggingface_tokenizer_body json_loads1 lib p
                  = huggingface_tokenizer_body json_loads2 lib p).
  { destruct p as [[tok|] env h]; [reflexivity|]. simpl in Hparse.
    unfold huggingface_tokenizer_body, bind, import_transformers; simpl.
    destruct (import_AutoTokenizer lib); simpl; [reflexivity|].
    destruct (env !! "HF_TOKENIZER_MODEL") as [[|c m]|]; simpl; try reflexivity.
    unfold eval. rewrite Hparse. reflexivity. }
  rewrite Hbody. reflexivity.
Qed.

(** X8. What [_safe_json_loads_] raises comes from [json.loads] on a
    non-empty text: either the very exception [json.loads] raised, or a
    plain [ValueError] whose cause is the [JSONDecodeError] it raised.  In
    neither case is the exception raised by the helper a
    [JSONDecodeError]. *)
Theorem safe_json_loads_raises_inversion
    (json_loads : string -> result pyvalue) (s : option string) (e' : exn) :
  _safe_json_loads_ json_loads s = Raises e' ->
  isinstance e' JSONDecodeError = false
  /\ exists text e,
       s = Some text /\ text <> "" /\ json_loads text = Raises e
       /\ (e' = e
           \/ (exc_type e' = ValueError /\ exc_cause e' = Some e
               /\ isinstance e JSONDecodeError = true)).
Proof.
  destruct s as [[|c a]|]; simpl; try discriminate.
  destruct (json_loads (String c a)) as [v|e] eqn:Hj; [discriminate|].
  destruct (isinstance e JSONDecodeError) eqn:He; intros [= <-].
  - split; [reflexivity|]. exists (String c a), e.
    repeat split; [discriminate|assumption|]. right. auto.
  - split; [assumption|]. exists (String c a), e.
    repeat split; [discriminate|assumption|]. left. reflexivity.
Qed.

Lemma accessor_raises_only_RuntimeError_witness :
  exists e0,
    Exn RuntimeError load_failure_message
      (Some (Exn ModuleNotFoundError "No module named 'transformers'" None))
    = Exn RuntimeError load_failure_message (Some e0)
    /\ isinstance e0 Exception = true
    /\ isinstance e0 NameError = false.
Proof.
  apply (accessor_raises_only_RuntimeError Sample.json_loads Sample.not_installed
           (fresh_process Sample.env_model)).
  - reflexivity.
  - reflexivity.
Defined.

Lemma environment_frame_witness :
  os_environ (huggingface_tokenizer Sample.json_loads Sample.hub
                (fresh_process Sample.env_model)).2 !! "HF_TOKENIZER_MODEL"
  = Some "bert-base-uncased".
Proof.
  refine (environment_frame Sample.json_loads Sample.hub
            (fresh_process Sample.env_model) "HF_TOKENIZER_MODEL" _).
  discriminate.
Defined.

Lemma environment_unchanged_when_flag_set_witness :
  os_environ (huggingface_tokenizer Sample.json_loads Sample.hub
                (fresh_process (the_flag Sample.env_model))).2
  = the_flag Sample.env_model.
Proof.
  refine (environment_unchanged_when_flag_set Sample.json_loads Sample.hub
            (fresh_process (the_flag Sample.env_model)) _).
  reflexivity.
Defined.

Lemma first_construction_witness :
  (huggingface_tokenizer Sample.json_loads Sample.hub (fresh_process Sample.env_model)).1
  = Returns (Some (Sample.TokenizerAt 4096)).
Proof.
  refine (f_equal fst (first_construction Sample.json_loads Sample.hub
                         (fresh_process Sample.env_model) "bert-base-uncased" []
                         (Sample.TokenizerAt 4096) _ _ _ _ _ _)).
  - reflexivity.
  - reflexivity.
  - reflexivity.
  - discriminate.
  - reflexivity.
  - reflexivity.
Defined.

Lemma non_mapping_options_fail_after_flag_witness :
  os_environ (huggingface_tokenizer Sample.json_loads Sample.hub
                (fresh_process Sample.env_list_args)).2
  = the_flag Sample.env_list_args.
Proof.
  refine (proj1 (proj2 (proj2 (non_mapping_options_fail_after_flag
            Sample.json_loads Sample.hub (fresh_process Sample.env_list_args)
            "bert-base-uncased" (PyList [PyInt 1; PyInt 2]) _ _ _ _ _ _)))).
  - reflexivity.
  - reflexivity.
  - reflexivity.
  - discriminate.
  - reflexivity.
  - reflexivity.
Defined.

Lemma import_failure_precedes_environment_witness :
  (huggingface_tokenizer Sample.json_loads Sample.not_installed
     (fresh_process Sample.env_bad_args)).2
  = Process None Sample.env_bad_args [EvImportTransformers].
Proof.
  refine (f_equal snd (import_failure_precedes_environment
            Sample.json_loads Sample.not_installed (fresh_process Sample.env_bad_args)
            (Exn ModuleNotFoundError "No module named 'transformers'" None) _ _ _ _)).
  - reflexivity.
  - reflexivity.
  - reflexivity.
  - reflexivity.
Defined.

Lemma tokenizer_is_a_singleton_witness :
  Sample.TokenizerAt 4096 = Sample.TokenizerAt 4096.
Proof.
  refine (tokenizer_is_a_singleton Sample.json_loads
            [Call Sample.not_installed id; Call Sample.hub id;
             Call Sample.broken_remote_code (fun _ => ∅)]
            (fresh_process Sample.env_model) _ _ _ _).
  - vm_compute. right. left. reflexivity.
  - vm_compute. right. right. left. reflexivity.
Defined.

Lemma failure_is_recoverable_witness :
  (huggingface_tokenizer Sample.json_loads Sample.hub
     (setenv (delete "HF_TOKENIZER_ARGS")
        (huggingface_tokenizer Sample.json_loads Sample.hub
           (fresh_process Sample.env_bad_args)).2)).1
  = Returns (Some (Sample.TokenizerAt 4096)).
Proof.
  refine (proj1 (failure_is_recoverable Sample.json_loads Sample.hub Sample.hub
            (fresh_process Sample.env_bad_args) (delete "HF_TOKENIZER_ARGS")
            "bert-base-uncased" [] (Sample.TokenizerAt 4096) _ _ _ _ _ _)).
  - intros t. vm_compute. discriminate.
  - reflexivity.
  - vm_compute. reflexivity.
  - discriminate.
  - vm_compute. reflexivity.
  - vm_compute. reflexivity.
Defined.

Lemma empty_options_skip_json_loads_witness :
  huggingface_tokenizer Sample.json_loads Sample.hub (fresh_process Sample.env_model)
  = huggingface_tokenizer
      (fun _ => Raises (Exn RecursionError "maximum recursion depth exceeded" None))
      Sample.hub (fresh_process Sample.env_model).
Proof.
  refine (empty_options_skip_json_loads Sample.json_loads _ Sample.hub
            (fresh_process Sample.env_model) _).
  reflexivity.
Defined.

Lemma safe_json_loads_raises_inversion_witness :
  isinstance
    (Exn ValueError (decode_failure_message "not json")
       (Some (Exn JSONDecodeError "Expecting value: line 1 column 1 (char 0)" None)))
    JSONDecodeError = false.
Proof.
  refine (proj1 (safe_json_loads_raises_inversion Sample.json_loads (Some "not json") _ _)).
  reflexivity.
Defined.
